(** * Personal API (main.py): a shallow embedding and its properties

    The program is a FastAPI application with two pydantic models
    ([PersonalInfo], [StudyInfo]), one memoised constructor function
    ([get_personal_info], wrapped in [functools.lru_cache]) and three GET
    handlers ([root], [get_info], [get_study_info]).

    Python objects live in a store: constructing a model or a dict
    allocates a new address, and handlers return addresses.  The wall clock,
    the class-level default of [PersonalInfo.last_updated] and the cache of
    [lru_cache] are the remaining components of the process state. *)

From Stdlib Require Import ZArith.
From stdpp Require Import gmap strings list.

Local Open Scope Z_scope.

(** ** Data model *)

(** [datetime] values are instants on the wall clock. *)
Definition datetime := Z.

(** class PersonalInfo(BaseModel) *)
Record PersonalInfo := mkPersonalInfo {
  name : string;
  bio : string;
  current_status : string;
  last_updated : datetime
}.

(** class StudyInfo(BaseModel); [achievements] is
    [Optional[Dict[str, str]]], [None] being Python's [None]. *)
Record StudyInfo := mkStudyInfo {
  institution : string;
  course : string;
  year : Z;
  achievements : option (gmap string string)
}.

(** The values that occur as fields of the three response records. *)
Inductive PyVal :=
  | VNone
  | VStr (s : string)
  | VInt (n : Z)
  | VDatetime (t : datetime)
  | VDict (d : gmap string string).

(** Objects of the store: model instances and plain dicts. *)
Inductive Obj :=
  | OPersonalInfo (p : PersonalInfo)
  | OStudyInfo (s : StudyInfo)
  | ODict (d : gmap string PyVal).

Definition addr := nat.

(** ** Process state *)

Record World := mkWorld {
  clock : datetime;
    (* current reading of the wall clock *)
  last_updated_default : datetime;
    (* the default of PersonalInfo.last_updated: the value of the
       expression [datetime.now()] in the class body *)
  heap : list Obj;
    (* objects constructed so far; an address is an index *)
  lru_cache : option addr
    (* cache of get_personal_info: the function has no argument, so the
       cache has one key *)
}.

(** fastapi.HTTPException, as a handler could raise it. *)
Record HTTPException := mkHTTPException {
  status_code : Z;
  detail : string
}.

(** ** A state and exception monad for Python code *)

Inductive Outcome (A : Type) :=
  | Returned (a : A) (w : World)
  | Raised (e : HTTPException) (w : World).
Arguments Returned {A} a w.
Arguments Raised {A} e w.

Definition M (A : Type) : Type := World → Outcome A.

Definition ret {A} (a : A) : M A := λ w, Returned a w.

Definition bind {A B} (c : M A) (k : A → M B) : M B :=
  λ w, match c w with
       | Returned a w' => k a w'
       | Raised e w' => Raised e w'
       end.

(** [raise HTTPException(...)]: main.py imports the exception and raises
    it nowhere, so no function below uses this. *)
Definition raise {A} (e : HTTPException) : M A := λ w, Raised e w.

Notation "x ⇐ c ;; k" := (bind c (λ x, k))
  (at level 100, c at next level, right associativity).

Definition world_of {A} (o : Outcome A) : World :=
  match o with Returned _ w => w | Raised _ w => w end.

(** ** Primitive operations *)

(** datetime.now() *)
Definition datetime_now : M datetime := λ w, Returned (clock w) w.

(** Construction of an object: it gets the next free address. *)
Definition alloc (o : Obj) : M addr :=
  λ w, Returned (length (heap w))
         (mkWorld (clock w) (last_updated_default w) (heap w ++ [o])
                  (lru_cache w)).

(** PersonalInfo(name=..., bio=..., current_status=...[, last_updated=...]):
    a missing [last_updated] takes the class-level default. *)
Definition PersonalInfo_init (n b s : string) (lu : option datetime)
  : M addr :=
  λ w, alloc (OPersonalInfo
                (mkPersonalInfo n b s (default (last_updated_default w) lu))) w.

(** StudyInfo(institution=..., course=..., year=...[, achievements=...]):
    a missing [achievements] takes the default [None]. *)
Definition StudyInfo_init (i c : string) (y : Z)
    (ach : option (gmap string string)) : M addr :=
  alloc (OStudyInfo (mkStudyInfo i c y ach)).

(** Storing the result of the wrapped function in the cache. *)
Definition cache_store (a : addr) : M unit :=
  λ w, Returned tt
         (mkWorld (clock w) (last_updated_default w) (heap w) (Some a)).

(** ** The functions of main.py *)

(** The body of get_personal_info, under the decorator. *)
Definition get_personal_info_body : M addr :=
  PersonalInfo_init "Your Name" "Your Bio" "Available" None.

(** @lru_cache() def get_personal_info(): a hit returns the cached object,
    a miss runs the body and stores its result. *)
Definition get_personal_info : M addr :=
  λ w, match lru_cache w with
       | Some a => Returned a w
       | None => (a ⇐ get_personal_info_body ;;
                  _ ⇐ cache_store a ;;
                  ret a) w
       end.

(** @app.get("/") async def root() *)
Definition root : M addr :=
  t ⇐ datetime_now ;;
  alloc (ODict {[ "status" := VStr "online"; "timestamp" := VDatetime t ]}).

(** @app.get("/info") async def get_info() *)
Definition get_info : M addr := get_personal_info.

(** @app.get("/study") async def get_study_info() *)
Definition get_study_info : M addr :=
  StudyInfo_init "Your University" "Your Course" 2024
    (Some {[ "2024" := "Dean's List"; "2023" := "Best Project Award" ]}).

(** ** A process run *)

(** Importing the module at clock reading [t]: the class bodies run once,
    so the default of last_updated is the reading of that moment; nothing
    is constructed and the cache is empty. *)
Definition import_main (t : datetime) : World :=
  mkWorld t t [] None.

Inductive Endpoint := Root | Info | Study.

Definition endpoint_fn (e : Endpoint) : M addr :=
  match e with
  | Root => root
  | Info => get_info
  | Study => get_study_info
  end.

(** What happens in a run: time passes, or a handler is called.  The
    handlers have no [await], so each call runs to its end undisturbed. *)
Inductive Event :=
  | Tick (d : Z)
  | Call (e : Endpoint).

Definition advance (d : Z) (w : World) : World :=
  mkWorld (clock w + d) (last_updated_default w) (heap w) (lru_cache w).

Definition step (w : World) (ev : Event) : World :=
  match ev with
  | Tick d => advance d w
  | Call e => world_of (endpoint_fn e w)
  end.

Definition run (evs : list Event) (w : World) : World :=
  foldl step w evs.

(** ** Response bodies *)

(** The fields of an object as the response body carries them
    (pydantic's dict view of a model; a dict is its own view). *)
Definition model_dump (o : Obj) : gmap string PyVal :=
  match o with
  | OPersonalInfo p =>
      {[ "name" := VStr (name p); "bio" := VStr (bio p);
         "current_status" := VStr (current_status p);
         "last_updated" := VDatetime (last_updated p) ]}
  | OStudyInfo s =>
      {[ "institution" := VStr (institution s); "course" := VStr (course s);
         "year" := VInt (year s);
         "achievements" := from_option VDict VNone (achievements s) ]}
  | ODict d => d
  end.

(** The field names each endpoint's response declares: the keys of the
    dict literal of root, the annotated attributes of the two models. *)
Definition response_fields (e : Endpoint) : list string :=
  match e with
  | Root => ["status"; "timestamp"]
  | Info => ["name"; "bio"; "current_status"; "last_updated"]
  | Study => ["institution"; "course"; "year"; "achievements"]
  end.

(** The body an endpoint call produces in world [w], if it returns. *)
Definition response_body (e : Endpoint) (w : World)
  : option (gmap string PyVal) :=
  match endpoint_fn e w with
  | Returned a w' => model_dump <$> heap w' !! a
  | Raised _ _ => None
  end.

(** ** Routing *)

Inductive Method := GET | POST | PUT | DELETE | PATCH | HEAD | OPTIONS.

#[global] Instance Method_eq_dec : EqDecision Method.
Proof. solve_decision. Defined.

#[global] Instance Endpoint_eq_dec : EqDecision Endpoint.
Proof. solve_decision. Defined.

Record Route := mkRoute {
  route_method : Method;
  route_path : string;
  route_endpoint : Endpoint
}.

#[global] Instance Route_eq_dec : EqDecision Route.
Proof. solve_decision. Defined.

(** The routes main.py registers, in the order of its decorators. *)
Definition routes : list Route :=
  [ mkRoute GET "/" Root; mkRoute GET "/info" Info;
    mkRoute GET "/study" Study ].

Definition registered_paths : list string := route_path <$> routes.

Inductive Response :=
  | OK (body : gmap string PyVal)
  | NotFound
  | MethodNotAllowed
  | HTTPError (e : HTTPException)
  | ServerError.

(** Modelled from the spec: the request router, which is the external HTTP
    framework and no part of main.py.  Sections 7 and 8 give its behaviour:
    a request whose path and method match a registered route runs that
    route's handler; a path that is registered under another method only is
    answered "method not allowed"; any other path is answered "not found".
    The two fault answers are produced without calling a handler. *)
Definition app (m : Method) (p : string) (w : World) : Response * World :=
  match find (λ r, bool_decide (route_path r = p ∧ route_method r = m))
             routes with
  | Some r =>
      match endpoint_fn (route_endpoint r) w with
      | Returned a w' =>
          (from_option (λ o, OK (model_dump o)) ServerError (heap w' !! a),
           w')
      | Raised e w' => (HTTPError e, w')
      end
  | None =>
      if bool_decide (p ∈ registered_paths)
      then (MethodNotAllowed, w)
      else (NotFound, w)
  end.

(** ** The cached object *)

(** The record get_personal_info builds in world [w]. *)
Definition cached_record (w : World) : PersonalInfo :=
  mkPersonalInfo "Your Name" "Your Bio" "Available" (last_updated_default w).

(** A filled cache points at that record. *)
Definition cache_ok (w : World) : Prop :=
  ∀ a, lru_cache w = Some a →
       heap w !! a = Some (OPersonalInfo (cached_record w)).

(** ** Response models and kinds of events *)

(** The classes of the objects of the store. *)
Inductive Model := MDict | MPersonalInfo | MStudyInfo.

Definition type_of (o : Obj) : Model :=
  match o with
  | OPersonalInfo _ => MPersonalInfo
  | OStudyInfo _ => MStudyInfo
  | ODict _ => MDict
  end.

(** The response_model argument of the three route decorators. *)
Definition response_model (e : Endpoint) : Model :=
  match e with
  | Root => MDict
  | Info => MPersonalInfo
  | Study => MStudyInfo
  end.

#[global] Instance Event_eq_dec : EqDecision Event.
Proof. solve_decision. Defined.

(** The calls whose handler constructs an object in every state: root
    builds a dict and get_study_info a StudyInfo; get_info constructs on a
    cache miss only. *)
Definition constructs (ev : Event) : bool :=
  match ev with
  | Call Root | Call Study => true
  | Call Info | Tick _ => false
  end.

(** An event that does not set the clock back. *)
Definition forward (ev : Event) : Prop :=
  match ev with
  | Tick d => 0 ≤ d
  | Call _ => True
  end.

(** A PersonalInfo object exists at the cached address only. *)
Definition singleton_ok (w : World) : Prop :=
  ∀ i p, heap w !! i = Some (OPersonalInfo p) → lru_cache w = Some i.

(** * Properties *)

(** ** What each function returns *)

Section Returns.
Variable w : World.

Lemma root_returns :
  root w =
    Returned (length (heap w))
      (mkWorld (clock w) (last_updated_default w)
         (heap w ++ [ODict {[ "status" := VStr "online";
                              "timestamp" := VDatetime (clock w) ]}])
         (lru_cache w)).
Proof. reflexivity. Qed.

Lemma get_study_info_returns :
  get_study_info w =
    Returned (length (heap w))
      (mkWorld (clock w) (last_updated_default w)
         (heap w ++ [OStudyInfo
            (mkStudyInfo "Your University" "Your Course" 2024
               (Some {[ "2024" := "Dean's List";
                        "2023" := "Best Project Award" ]}))])
         (lru_cache w)).
Proof. reflexivity. Qed.

Lemma PersonalInfo_init_default (n b s : string) :
  PersonalInfo_init n b s None w =
    Returned (length (heap w))
      (mkWorld (clock w) (last_updated_default w)
         (heap w ++ [OPersonalInfo
            (mkPersonalInfo n b s (last_updated_default w))])
         (lru_cache w)).
Proof. reflexivity. Qed.

Lemma get_info_hit (a : addr) :
  lru_cache w = Some a → get_info w = Returned a w.
Proof. intros H. unfold get_info, get_personal_info. by rewrite H. Qed.

Lemma get_info_miss :
  lru_cache w = None →
  get_info w =
    Returned (length (heap w))
      (mkWorld (clock w) (last_updated_default w)
         (heap w ++ [OPersonalInfo
            (mkPersonalInfo "Your Name" "Your Bio" "Available"
               (last_updated_default w))])
         (Some (length (heap w)))).
Proof. intros H. unfold get_info, get_personal_info. by rewrite H. Qed.

(** No handler raises. *)
Lemma endpoint_returns (e : Endpoint) :
  ∃ a w', endpoint_fn e w = Returned a w'.
Proof.
  destruct e; simpl.
  - rewrite root_returns; eauto.
  - destruct (lru_cache w) as [a|] eqn:Hc.
    + rewrite (get_info_hit a Hc); eauto.
    + rewrite (get_info_miss Hc); eauto.
  - rewrite get_study_info_returns; eauto.
Qed.
End Returns.

(** ** Frame: what a step leaves alone *)

(** The store only grows at its end. *)
Lemma step_heap (w : World) (ev : Event) :
  ∃ l, heap (step w ev) = heap w ++ l.
Proof.
  destruct ev as [d|[]]; simpl.
  - exists []. by rewrite app_nil_r.
  - by eexists.
  - destruct (lru_cache w) as [a|] eqn:Hc.
    + rewrite (get_info_hit w a Hc). exists []. by rewrite app_nil_r.
    + rewrite (get_info_miss w Hc). by eexists.
  - by eexists.
Qed.

Lemma step_default (w : World) (ev : Event) :
  last_updated_default (step w ev) = last_updated_default w.
Proof.
  destruct ev as [d|[]]; simpl; try done.
  destruct (lru_cache w) as [a|] eqn:Hc.
  - by rewrite (get_info_hit w a Hc).
  - by rewrite (get_info_miss w Hc).
Qed.

(** The cache changes in one situation only: a call of get_info that finds
    it empty, and then it holds the address just allocated. *)
Lemma step_cache (w : World) (ev : Event) :
  lru_cache (step w ev) = lru_cache w ∨
  (ev = Call Info ∧ lru_cache w = None ∧
   lru_cache (step w ev) = Some (length (heap w))).
Proof.
  destruct ev as [d|[]]; simpl; try by left.
  destruct (lru_cache w) as [a|] eqn:Hc.
  - left. by rewrite (get_info_hit w a Hc).
  - right. by rewrite (get_info_miss w Hc).
Qed.

Lemma step_cache_filled (w : World) (ev : Event) (c : addr) :
  lru_cache w = Some c → lru_cache (step w ev) = Some c.
Proof.
  intros Hc. destruct (step_cache w ev) as [->|(_ & Hn & _)]; congruence.
Qed.

Lemma run_app (evs1 evs2 : list Event) (w : World) :
  run (evs1 ++ evs2) w = run evs2 (run evs1 w).
Proof. unfold run. apply foldl_app. Qed.

Lemma run_cons (ev : Event) (evs : list Event) (w : World) :
  run (ev :: evs) w = run evs (step w ev).
Proof. reflexivity. Qed.

Lemma run_heap (evs : list Event) (w : World) :
  ∃ l, heap (run evs w) = heap w ++ l.
Proof.
  revert w. induction evs as [|ev evs IH]; intros w.
  - exists []. by rewrite app_nil_r.
  - rewrite run_cons.
    destruct (IH (step w ev)) as [l2 H2].
    destruct (step_heap w ev) as [l1 H1].
    exists (l1 ++ l2). by rewrite H2, H1, app_assoc.
Qed.

Lemma run_lookup (evs : list Event) (w : World) (i : addr) (o : Obj) :
  heap w !! i = Some o → heap (run evs w) !! i = Some o.
Proof.
  intros H. destruct (run_heap evs w) as [l ->].
  by apply lookup_app_l_Some.
Qed.

Lemma run_default (evs : list Event) (w : World) :
  last_updated_default (run evs w) = last_updated_default w.
Proof.
  revert w. induction evs as [|ev evs IH]; intros w; [done|].
  by rewrite run_cons, IH, step_default.
Qed.

Lemma run_cache_filled (evs : list Event) (w : World) (c : addr) :
  lru_cache w = Some c → lru_cache (run evs w) = Some c.
Proof.
  revert w. induction evs as [|ev evs IH]; intros w Hc; [done|].
  rewrite run_cons. apply IH. by apply step_cache_filled.
Qed.

(** ** The cache invariant *)

Lemma import_cache_ok (t : datetime) : cache_ok (import_main t).
Proof. intros a H. discriminate H. Qed.

Lemma step_cache_ok (w : World) (ev : Event) :
  cache_ok w → cache_ok (step w ev).
Proof.
  intros Hok a Ha. unfold cached_record. rewrite step_default.
  destruct (step_cache w ev) as [Heq|(-> & Hn & Hs)].
  - rewrite Heq in Ha. destruct (step_heap w ev) as [l ->].
    apply lookup_app_l_Some. by apply Hok.
  - rewrite Hs in Ha. injection Ha as <-. simpl.
    rewrite (get_info_miss w Hn). simpl.
    by rewrite lookup_app_r, Nat.sub_diag.
Qed.

Lemma run_cache_ok (evs : list Event) (w : World) :
  cache_ok w → cache_ok (run evs w).
Proof.
  revert w. induction evs as [|ev evs IH]; intros w Hok; [done|].
  rewrite run_cons. apply IH. by apply step_cache_ok.
Qed.

(** In a world with a consistent cache, get_info returns an address that
    holds the cached record, whether it hits or misses. *)
Lemma get_info_spec (w : World) :
  cache_ok w →
  ∃ a w', get_info w = Returned a w' ∧
          heap w' !! a = Some (OPersonalInfo (cached_record w)) ∧
          lru_cache w' = Some a ∧
          last_updated_default w' = last_updated_default w.
Proof.
  intros Hok. destruct (lru_cache w) as [a|] eqn:Hc.
  - exists a, w. rewrite (get_info_hit w a Hc). auto.
  - rewrite (get_info_miss w Hc). eexists _, _. split; [reflexivity|].
    simpl. split_and!; try done.
    by rewrite lookup_app_r, Nat.sub_diag.
Qed.

Lemma lookup_fresh (l : list Obj) (o : Obj) : (l ++ [o]) !! length l = Some o.
Proof. by rewrite lookup_app_r, Nat.sub_diag. Qed.

(** ** Response bodies of the three endpoints *)

Lemma response_body_root (w : World) :
  response_body Root w =
    Some {[ "status" := VStr "online"; "timestamp" := VDatetime (clock w) ]}.
Proof.
  unfold response_body, endpoint_fn. rewrite root_returns.
  cbn [heap]. by rewrite lookup_fresh.
Qed.

Lemma response_body_info (w : World) :
  cache_ok w →
  response_body Info w = Some (model_dump (OPersonalInfo (cached_record w))).
Proof.
  intros Hok. destruct (get_info_spec w Hok) as (a & w' & Hr & Hh & _).
  unfold response_body, endpoint_fn. by rewrite Hr, Hh.
Qed.

Lemma response_body_study (w : World) :
  response_body Study w =
    Some (model_dump (OStudyInfo
      (mkStudyInfo "Your University" "Your Course" 2024
         (Some {[ "2024" := "Dean's List";
                  "2023" := "Best Project Award" ]})))).
Proof.
  unfold response_body, endpoint_fn. rewrite get_study_info_returns.
  cbn [heap]. by rewrite lookup_fresh.
Qed.

(** ** The default of last_updated *)

(** In every world of a run, a PersonalInfo constructed without
    last_updated carries the clock reading of the import. *)
Lemma PersonalInfo_default_is_import_time
    (t0 : datetime) (evs : list Event) (n b s : string) :
  ∃ a w', PersonalInfo_init n b s None (run evs (import_main t0))
            = Returned a w' ∧
          heap w' !! a = Some (OPersonalInfo (mkPersonalInfo n b s t0)).
Proof.
  rewrite PersonalInfo_init_default. eexists _, _. split; [reflexivity|].
  cbn [heap]. by rewrite lookup_fresh, run_default.
Qed.

(** * The claims *)

(** C1: any two calls of GET /info in one process run return the same
    record: the same address, holding the same PersonalInfo value at both
    calls, hence equal last_updated values.  The run starts with the import
    of the module at any time [t0]; [evs1] is what happens before the first
    of the two calls and [evs2] what happens between them. *)
Theorem get_info_memoized (t0 : datetime) (evs1 evs2 : list Event) :
  ∃ a p w1 w2,
    get_info (run evs1 (import_main t0)) = Returned a w1 ∧
    get_info (run evs2 w1) = Returned a w2 ∧
    heap w1 !! a = Some (OPersonalInfo p) ∧
    heap w2 !! a = Some (OPersonalInfo p) ∧
    response_body Info (run evs1 (import_main t0))
      = response_body Info (run evs2 w1).
Proof.
  pose proof (run_cache_ok evs1 _ (import_cache_ok t0)) as Hok.
  destruct (get_info_spec _ Hok) as (a & w1 & Hr & Hh & Hc & Hd).
  pose proof (run_cache_filled evs2 w1 a Hc) as Hc2.
  pose proof (run_lookup evs2 w1 a _ Hh) as Hh2.
  exists a, (cached_record (run evs1 (import_main t0))), w1, (run evs2 w1).
  split_and!; try done.
  - by apply get_info_hit.
  - unfold response_body, endpoint_fn.
    by rewrite Hr, (get_info_hit _ a Hc2), Hh, Hh2.
Qed.

(** C2: the code at the failing input.  The module is imported at clock
    reading 0 and five units of time pass; a PersonalInfo constructed then
    without last_updated (as the first GET /info does) has last_updated 0,
    the reading at the import, while the clock at the construction reads 5. *)
Theorem PersonalInfo_default_last_updated_stale :
  let w := run [Tick 5] (import_main 0) in
  clock w = 5 ∧
  (∃ a w', PersonalInfo_init "Your Name" "Your Bio" "Available" None w
             = Returned a w' ∧
           heap w' !! a = Some (OPersonalInfo
             (mkPersonalInfo "Your Name" "Your Bio" "Available" 0))) ∧
  (∃ a w' p, get_info w = Returned a w' ∧
             heap w' !! a = Some (OPersonalInfo p) ∧
             last_updated p = 0 ∧ last_updated p ≠ clock w).
Proof.
  split_and!.
  - reflexivity.
  - eexists _, _. split; reflexivity.
  - eexists _, _, _. split_and!; try reflexivity. simpl. lia.
Qed.

(** C3: every call of GET /study returns a StudyInfo with the four
    constant fields, achievements being exactly the two-entry mapping; the
    record is newly constructed (its address was free before the call and
    the store grows by this one object), nothing is cached (the cache is
    as before), and a later call returns another address. *)
Theorem get_study_info_fresh_constants (w : World) :
  ∃ a w' s m,
    get_study_info w = Returned a w' ∧
    heap w !! a = None ∧
    heap w' = heap w ++ [OStudyInfo s] ∧
    heap w' !! a = Some (OStudyInfo s) ∧
    lru_cache w' = lru_cache w ∧
    institution s = "Your University" ∧
    course s = "Your Course" ∧
    year s = 2024 ∧
    achievements s = Some m ∧
    m = {[ "2024" := "Dean's List"; "2023" := "Best Project Award" ]} ∧
    size m = 2%nat ∧
    (∀ evs a2 w2, get_study_info (run evs w') = Returned a2 w2 → a2 ≠ a).
Proof.
  rewrite get_study_info_returns. eexists _, _, _, _.
  split; [reflexivity|]. cbn [heap lru_cache].
  split_and!; try reflexivity.
  - apply lookup_ge_None_2. lia.
  - apply lookup_fresh.
  - intros evs a2 w2. rewrite get_study_info_returns.
    intros [= <- _]. destruct (run_heap evs
      (mkWorld (clock w) (last_updated_default w)
         (heap w ++ [OStudyInfo (mkStudyInfo "Your University" "Your Course"
            2024 (Some {[ "2024" := "Dean's List";
                          "2023" := "Best Project Award" ]}))])
         (lru_cache w))) as [l ->].
    cbn [heap]. rewrite !length_app. simpl. lia.
Qed.

(** C4: every call of GET /info in a process run returns a PersonalInfo
    with name "Your Name", bio "Your Bio" and current_status "Available". *)
Theorem get_info_constants (t0 : datetime) (evs : list Event) :
  ∃ a w' p,
    get_info (run evs (import_main t0)) = Returned a w' ∧
    heap w' !! a = Some (OPersonalInfo p) ∧
    name p = "Your Name" ∧
    bio p = "Your Bio" ∧
    current_status p = "Available".
Proof.
  pose proof (run_cache_ok evs _ (import_cache_ok t0)) as Hok.
  destruct (get_info_spec _ Hok) as (a & w' & Hr & Hh & _).
  by exists a, w', (cached_record (run evs (import_main t0))).
Qed.

(** C5: in every world, GET / returns (it does not raise) a new dict whose
    status is the string "online" and whose timestamp is the reading of the
    clock at the call; the response body has these two fields. *)
Theorem root_online_now (w : World) :
  ∃ a w' d,
    root w = Returned a w' ∧
    heap w' !! a = Some (ODict d) ∧
    d !! "status" = Some (VStr "online") ∧
    d !! "timestamp" = Some (VDatetime (clock w)) ∧
    response_body Root w = Some d.
Proof.
  rewrite response_body_root, root_returns. eexists _, _, _.
  split; [reflexivity|]. cbn [heap].
  split; [apply lookup_fresh|]. by split_and!.
Qed.

(** C6: in a process run, the response body of each of the three endpoints
    has every field its record declares, achievements apart, present and
    different from None; achievements is the one field whose type admits
    None: a StudyInfo built without it carries None there. *)
Theorem response_fields_non_null
    (t0 : datetime) (evs : list Event) (e : Endpoint) :
  (∃ body,
     response_body e (run evs (import_main t0)) = Some body ∧
     ∀ f, f ∈ response_fields e → f ≠ "achievements" →
          ∃ v, body !! f = Some v ∧ v ≠ VNone) ∧
  (∀ i c y w, ∃ a w' s,
     StudyInfo_init i c y None w = Returned a w' ∧
     heap w' !! a = Some (OStudyInfo s) ∧
     model_dump (OStudyInfo s) !! "achievements" = Some VNone).
Proof.
  split.
  - destruct e.
    + rewrite response_body_root. eexists. split; [reflexivity|].
      intros f Hf _. simpl in Hf.
      repeat (apply elem_of_cons in Hf as [->|Hf]);
        [eexists; split; [reflexivity|done] ..|].
      by apply elem_of_nil in Hf.
    + rewrite response_body_info
        by apply run_cache_ok, import_cache_ok.
      eexists. split; [reflexivity|].
      intros f Hf _. simpl in Hf.
      repeat (apply elem_of_cons in Hf as [->|Hf]);
        [eexists; split; [reflexivity|done] ..|].
      by apply elem_of_nil in Hf.
    + rewrite response_body_study. eexists. split; [reflexivity|].
      intros f Hf Hne. simpl in Hf.
      repeat (apply elem_of_cons in Hf as [->|Hf]); try done;
        [eexists; split; [reflexivity|done] ..|].
      by apply elem_of_nil in Hf.
  - intros i c y w. eexists _, _, _. split; [reflexivity|].
    cbn [heap]. split; [apply lookup_fresh|reflexivity].
Qed.

(** C7: a request that matches none of the three registered routes is
    answered by the router without a handler being called (the world is
    unchanged): "not found" when the path is not registered, "method not
    allowed" when the path is registered and the method is not GET; these
    are the only two ways of matching no route.  No request at all is
    answered with an HTTPException raised by a handler. *)
Theorem unmatched_request_fails_in_framework
    (m : Method) (p : string) (w : World) :
  (p ∉ registered_paths → app m p w = (NotFound, w)) ∧
  (p ∈ registered_paths → m ≠ GET → app m p w = (MethodNotAllowed, w)) ∧
  ((∀ e, mkRoute m p e ∉ routes) → p ∉ registered_paths ∨ m ≠ GET) ∧
  (∀ e, (app m p w).1 ≠ HTTPError e).
Proof.
  assert (Hin : p ∈ registered_paths ↔ p = "/" ∨ p = "/info" ∨ p = "/study").
  { unfold registered_paths. simpl. rewrite !elem_of_cons, elem_of_nil.
    tauto. }
  split_and!.
  - intros Hp. unfold app. simpl.
    repeat case_bool_decide; try done;
      exfalso; apply Hp, Hin; destruct_and?; subst; auto.
  - intros Hp Hm. unfold app. simpl.
    repeat case_bool_decide; try done;
      exfalso; destruct_and?; subst; auto.
  - intros Hr. destruct (decide (m = GET)) as [Hm | Hm]; [left | by right].
    subst m. intros Hp. apply Hin in Hp as [Hp | [Hp | Hp]]; subst p.
    + apply (Hr Root). unfold routes. repeat constructor.
    + apply (Hr Info). unfold routes. repeat constructor.
    + apply (Hr Study). unfold routes. repeat constructor.
  - intros e. unfold app.
    destruct (find _ routes) as [r | ].
    + destruct (endpoint_returns w (route_endpoint r)) as (a & w' & ->).
      simpl. by destruct (heap w' !! a).
    + by case_bool_decide.
Qed.

(** The two requests the specification names. *)
Example get_nope_not_found (w : World) : app GET "/nope" w = (NotFound, w).
Proof. reflexivity. Qed.

Example post_info_not_allowed (w : World) :
  app POST "/info" w = (MethodNotAllowed, w).
Proof. reflexivity. Qed.

(** C8: a request for GET / arrives when the clock reads [clock w]; when,
    a time [d] later, the handler runs, the timestamp it returns is not
    before the arrival, provided the clock has not been set back
    ([0 ≤ d]). *)
Theorem root_timestamp_not_before_request (w : World) (d : Z) :
  0 ≤ d →
  ∃ a w' dict t,
    root (advance d w) = Returned a w' ∧
    heap w' !! a = Some (ODict dict) ∧
    dict !! "timestamp" = Some (VDatetime t) ∧
    clock w ≤ t.
Proof.
  intros Hd. rewrite root_returns. eexists _, _, _, _.
  split; [reflexivity|]. cbn [heap advance].
  split; [apply lookup_fresh|]. split; [reflexivity|]. simpl. lia.
Qed.

Lemma root_timestamp_not_before_request_witness :
  0 ≤ 3 ∧
  ∃ a w' dict t,
    root (advance 3 (import_main 10)) = Returned a w' ∧
    heap w' !! a = Some (ODict dict) ∧
    dict !! "timestamp" = Some (VDatetime t) ∧
    clock (import_main 10) ≤ t.
Proof.
  split; [lia|].
  apply (root_timestamp_not_before_request (import_main 10) 3). lia.
Defined.

(** C9: nothing is mutated after its construction.  A call of any handler
    returns, leaves every object of the store as it was (the store grows at
    new addresses only), does not touch the default of last_updated nor the
    clock, and leaves the cache alone unless it is get_info finding the
    cache empty, which stores the address of the record it has just built.
    Over any sequence of events a filled cache keeps its address and the
    object there keeps its value, so the cache is written once at most. *)
Theorem no_mutation_after_construction (w : World) :
  (∀ e, ∃ a w',
     endpoint_fn e w = Returned a w' ∧
     (∀ i o, heap w !! i = Some o → heap w' !! i = Some o) ∧
     last_updated_default w' = last_updated_default w ∧
     clock w' = clock w ∧
     (lru_cache w' = lru_cache w ∨
      (e = Info ∧ lru_cache w = None ∧ heap w !! a = None ∧
       lru_cache w' = Some a))) ∧
  (∀ evs i o, heap w !! i = Some o → heap (run evs w) !! i = Some o) ∧
  (∀ evs c, lru_cache w = Some c → lru_cache (run evs w) = Some c).
Proof.
  split_and!.
  - intros e. destruct (endpoint_returns w e) as (a & w' & Hr).
    exists a, w'. split; [done|].
    pose proof (step_heap w (Call e)) as [l Hl].
    pose proof (step_default w (Call e)) as Hd.
    pose proof (step_cache w (Call e)) as Hc.
    simpl in Hl, Hd, Hc. rewrite Hr in Hl, Hd, Hc. simpl in Hl, Hd, Hc.
    split_and!.
    + intros i o Hi. rewrite Hl. by apply lookup_app_l_Some.
    + done.
    + destruct e; simpl in Hr.
      * rewrite root_returns in Hr. by injection Hr as <- <-.
      * destruct (lru_cache w) as [c|] eqn:Hw.
        -- rewrite (get_info_hit w c Hw) in Hr. by injection Hr as <- <-.
        -- rewrite (get_info_miss w Hw) in Hr. by injection Hr as <- <-.
      * rewrite get_study_info_returns in Hr. by injection Hr as <- <-.
    + destruct Hc as [Hc|([= ->] & Hn & Hs)]; [by left|right].
      split_and!; try done.
      * simpl in Hr. rewrite (get_info_miss w Hn) in Hr.
        injection Hr as <- _. apply lookup_ge_None_2. lia.
      * rewrite Hs. simpl in Hr. rewrite (get_info_miss w Hn) in Hr.
        by injection Hr as <- _.
  - intros evs i o. apply run_lookup.
  - intros evs c. apply run_cache_filled.
Qed.

(** C10: achievements is optional and a StudyInfo built without it holds
    None, yet every response of GET /study holds a mapping there: the
    returned record has [achievements = Some m] and the response body's
    achievements field is that mapping, not None. *)
Theorem study_achievements_never_null (w : World) :
  (∃ a w' s m body,
     get_study_info w = Returned a w' ∧
     heap w' !! a = Some (OStudyInfo s) ∧
     achievements s = Some m ∧
     response_body Study w = Some body ∧
     body !! "achievements" = Some (VDict m) ∧
     body !! "achievements" ≠ Some VNone) ∧
  (∀ i c y, ∃ a w',
     StudyInfo_init i c y None w = Returned a w' ∧
     heap w' !! a = Some (OStudyInfo (mkStudyInfo i c y None))).
Proof.
  split.
  - rewrite response_body_study, get_study_info_returns.
    eexists _, _, _, _, _. split; [reflexivity|]. cbn [heap].
    split; [apply lookup_fresh|]. by split_and!.
  - intros i c y. eexists _, _. split; [reflexivity|].
    cbn [heap]. apply lookup_fresh.
Qed.

(** * Further properties of main.py *)

(** ** The clock *)

Lemma step_clock_call (w : World) (e : Endpoint) :
  clock (step w (Call e)) = clock w.
Proof.
  destruct e; simpl; try done.
  destruct (lru_cache w) as [a | ] eqn:Hc.
  - by rewrite (get_info_hit w a Hc).
  - by rewrite (get_info_miss w Hc).
Qed.

Lemma run_clock_mono (evs : list Event) (w : World) :
  Forall forward evs → clock w ≤ clock (run evs w).
Proof.
  intros Hf. revert w. induction Hf as [ | ev evs Hev _ IH]; intros w.
  - reflexivity.
  - rewrite run_cons. etrans; [ | apply IH].
    destruct ev as [d | e].
    + simpl in *. lia.
    + by rewrite step_clock_call.
Qed.

(** ** Counting the objects of the store *)

Lemma run_length_filled (evs : list Event) (w : World) (c : addr) :
  lru_cache w = Some c →
  length (heap (run evs w)) =
    (length (heap w) + length (filter constructs evs))%nat.
Proof.
  revert w. induction evs as [ | ev evs IH]; intros w Hc.
  - simpl. lia.
  - rewrite run_cons, (IH (step w ev)) by by apply step_cache_filled.
    rewrite filter_cons. destruct ev as [d | [ | | ]]; simpl.
    + lia.
    + rewrite length_app. simpl. lia.
    + rewrite (get_info_hit w c Hc). simpl. lia.
    + rewrite length_app. simpl. lia.
Qed.

Lemma info_in_cons (ev : Event) (evs : list Event) :
  ev ≠ Call Info → Call Info ∈ ev :: evs ↔ Call Info ∈ evs.
Proof.
  intros Hne. rewrite elem_of_cons.
  split; [intros [H | H]; [congruence | done] | by right].
Qed.

Lemma run_length_empty (evs : list Event) (w : World) :
  lru_cache w = None →
  length (heap (run evs w)) =
    (length (heap w) + length (filter constructs evs)
     + if bool_decide (Call Info ∈ evs) then 1 else 0)%nat.
Proof.
  revert w. induction evs as [ | ev evs IH]; intros w Hc.
  - rewrite bool_decide_eq_false_2 by apply not_elem_of_nil. simpl. lia.
  - rewrite run_cons, filter_cons. destruct ev as [d | [ | | ]].
    + rewrite (IH (step w (Tick d))) by done.
      rewrite (bool_decide_ext (Call Info ∈ Tick d :: evs) (Call Info ∈ evs))
        by by apply info_in_cons.
      simpl. lia.
    + rewrite (IH (step w (Call Root))) by done.
      rewrite (bool_decide_ext (Call Info ∈ Call Root :: evs)
                 (Call Info ∈ evs))
        by by apply info_in_cons.
      simpl. rewrite length_app. simpl. lia.
    + rewrite (run_length_filled evs _ (length (heap w)))
        by (simpl; by rewrite (get_info_miss w Hc)).
      rewrite bool_decide_eq_true_2 by (apply elem_of_cons; by left).
      simpl. rewrite (get_info_miss w Hc). simpl.
      rewrite length_app. simpl. lia.
    + rewrite (IH (step w (Call Study))) by done.
      rewrite (bool_decide_ext (Call Info ∈ Call Study :: evs)
                 (Call Info ∈ evs))
        by by apply info_in_cons.
      simpl. rewrite length_app. simpl. lia.
Qed.

(** ** The one PersonalInfo object *)

Lemma step_singleton_ok (w : World) (ev : Event) :
  singleton_ok w → singleton_ok (step w ev).
Proof.
  intros Hs i p. destruct ev as [d | [ | | ]]; simpl.
  - apply (Hs i p).
  - intros [Hi | [_ Hi]]%lookup_app_Some; [by apply (Hs i p) | ].
    by destruct (i - length (heap w))%nat.
  - destruct (lru_cache w) as [c | ] eqn:Hc.
    + rewrite (get_info_hit w c Hc). simpl. apply (Hs i p).
    + rewrite (get_info_miss w Hc). simpl.
      intros [Hi | [Hge Hi]]%lookup_app_Some.
      * apply (Hs i p) in Hi. congruence.
      * destruct (i - length (heap w))%nat as [ | k] eqn:Hk; [ | done].
        f_equal. lia.
  - intros [Hi | [_ Hi]]%lookup_app_Some; [by apply (Hs i p) | ].
    by destruct (i - length (heap w))%nat.
Qed.

Lemma run_singleton_ok (evs : list Event) (w : World) :
  singleton_ok w → singleton_ok (run evs w).
Proof.
  revert w. induction evs as [ | ev evs IH]; intros w Hs; [done | ].
  rewrite run_cons. apply IH. by apply step_singleton_ok.
Qed.

Lemma import_singleton_ok (t : datetime) : singleton_ok (import_main t).
Proof. intros i p H. simpl in H. by rewrite lookup_nil in H. Qed.

Lemma run_cache_empty_iff (evs : list Event) (w : World) :
  lru_cache w = None →
  lru_cache (run evs w) = None ↔ Call Info ∉ evs.
Proof.
  revert w. induction evs as [ | ev evs IH]; intros w Hc.
  - split; [intros _; apply not_elem_of_nil | done].
  - rewrite run_cons. destruct (decide (ev = Call Info)) as [Hev | Hev].
    + subst ev. split.
      * intros Hn.
        rewrite (run_cache_filled evs _ (length (heap w))) in Hn; [done | ].
        simpl. by rewrite (get_info_miss w Hc).
      * intros Hn. exfalso. apply Hn, elem_of_cons. by left.
    + rewrite (info_in_cons ev evs Hev). apply IH.
      destruct (step_cache w ev) as [Heq | (He & _)]; congruence.
Qed.


(** * Further theorems *)

(** X1: in every run, whatever happened since the import and however late
    the first call comes, the response body of GET /info is the same four
    fields: the three constant strings and, as last_updated, the clock
    reading of the import. *)
Theorem info_body_fixed_by_import (t0 : datetime) (evs : list Event) :
  response_body Info (run evs (import_main t0)) =
    Some {[ "name" := VStr "Your Name"; "bio" := VStr "Your Bio";
            "current_status" := VStr "Available";
            "last_updated" := VDatetime t0 ]}.
Proof.
  rewrite response_body_info by apply run_cache_ok, import_cache_ok.
  unfold cached_record. by rewrite run_default.
Qed.

(** X2: the cache of get_personal_info is filled lazily and by GET /info
    only: after a run it is empty exactly when the run has no call of
    get_info; calls of root and get_study_info and the passing of time
    never fill it. *)
Theorem cache_empty_until_info (t0 : datetime) (evs : list Event) :
  lru_cache (run evs (import_main t0)) = None ↔ Call Info ∉ evs.
Proof. by apply run_cache_empty_iff. Qed.

(** X3: a run holds one PersonalInfo object at most: every PersonalInfo in
    the store sits at the cached address and is the record with the three
    constants and the import-time last_updated, so two addresses holding a
    PersonalInfo are equal. *)
Theorem personal_info_singleton (t0 : datetime) (evs : list Event) :
  let w := run evs (import_main t0) in
  (∀ i p, heap w !! i = Some (OPersonalInfo p) →
          lru_cache w = Some i ∧
          p = mkPersonalInfo "Your Name" "Your Bio" "Available" t0) ∧
  (∀ i j p q, heap w !! i = Some (OPersonalInfo p) →
              heap w !! j = Some (OPersonalInfo q) → i = j).
Proof.
  intros w.
  pose proof (run_singleton_ok evs _ (import_singleton_ok t0)) as Hs.
  pose proof (run_cache_ok evs _ (import_cache_ok t0)) as Hok.
  fold w in Hs, Hok. split.
  - intros i p Hi. pose proof (Hs i p Hi) as Hc. split; [done | ].
    rewrite (Hok i Hc) in Hi. injection Hi as <-.
    unfold cached_record, w. by rewrite run_default.
  - intros i j p q Hi Hj.
    pose proof (Hs i p Hi) as Hci. pose proof (Hs j q Hj) as Hcj.
    congruence.
Qed.

(** X4: the size of the store after a run: one object for each call of
    root and of get_study_info, and one more, however many calls of
    get_info there are, if there is any. *)
Theorem store_size_of_run (t0 : datetime) (evs : list Event) :
  length (heap (run evs (import_main t0))) =
    (length (filter constructs evs)
     + if bool_decide (Call Info ∈ evs) then 1 else 0)%nat.
Proof. by rewrite run_length_empty. Qed.

(** X5: the response body of each endpoint has exactly the keys its record
    declares: a key is present if and only if it is one of the declared
    fields. *)
Theorem response_body_keys
    (t0 : datetime) (evs : list Event) (e : Endpoint) :
  ∃ body,
    response_body e (run evs (import_main t0)) = Some body ∧
    ∀ f, is_Some (body !! f) ↔ f ∈ response_fields e.
Proof.
  destruct e.
  - rewrite response_body_root. eexists. split; [reflexivity | ].
    intros f. rewrite <- elem_of_dom. simpl.
    rewrite !dom_insert_L, dom_singleton_L.
    rewrite !elem_of_union, !elem_of_singleton, !elem_of_cons, elem_of_nil.
    tauto.
  - rewrite response_body_info by apply run_cache_ok, import_cache_ok.
    eexists. split; [reflexivity | ].
    intros f. rewrite <- elem_of_dom. simpl.
    rewrite !dom_insert_L, dom_singleton_L.
    rewrite !elem_of_union, !elem_of_singleton, !elem_of_cons, elem_of_nil.
    tauto.
  - rewrite response_body_study. eexists. split; [reflexivity | ].
    intros f. rewrite <- elem_of_dom. simpl.
    rewrite !dom_insert_L, dom_singleton_L.
    rewrite !elem_of_union, !elem_of_singleton, !elem_of_cons, elem_of_nil.
    tauto.
Qed.

(** X6: as long as the clock is not set back, the timestamps of GET / do
    not decrease: of two calls of root, with any events in between, the
    later returns another dict, whose timestamp is not before that of the
    earlier one, and the earlier dict is still in the store as it was. *)
Theorem root_timestamps_monotone (w : World) (evs : list Event) :
  Forall forward evs →
  ∃ a1 w1 t1 a2 w2 t2,
    root w = Returned a1 w1 ∧
    root (run evs w1) = Returned a2 w2 ∧
    heap w2 !! a1 = Some (ODict {[ "status" := VStr "online";
                                   "timestamp" := VDatetime t1 ]}) ∧
    heap w2 !! a2 = Some (ODict {[ "status" := VStr "online";
                                   "timestamp" := VDatetime t2 ]}) ∧
    a1 ≠ a2 ∧
    t1 ≤ t2.
Proof.
  intros Hf.
  set (w1 := world_of (root w)).
  exists (length (heap w)), w1, (clock w),
         (length (heap (run evs w1))), (world_of (root (run evs w1))),
         (clock (run evs w1)).
  split; [reflexivity | ]. split; [reflexivity | ].
  rewrite (root_returns (run evs w1)). cbn [world_of heap].
  assert (H1 : heap (run evs w1) !! length (heap w) =
                 Some (ODict {[ "status" := VStr "online";
                                "timestamp" := VDatetime (clock w) ]})).
  { apply run_lookup. subst w1. rewrite root_returns. cbn [world_of heap].
    apply lookup_fresh. }
  split_and!.
  - by apply lookup_app_l_Some.
  - apply lookup_fresh.
  - apply lookup_lt_Some in H1. lia.
  - apply (run_clock_mono evs w1 Hf).
Qed.

Lemma root_timestamps_monotone_witness :
  Forall forward [Tick 2; Call Study] ∧
  ∃ a1 w1 t1 a2 w2 t2,
    root (import_main 10) = Returned a1 w1 ∧
    root (run [Tick 2; Call Study] w1) = Returned a2 w2 ∧
    heap w2 !! a1 = Some (ODict {[ "status" := VStr "online";
                                   "timestamp" := VDatetime t1 ]}) ∧
    heap w2 !! a2 = Some (ODict {[ "status" := VStr "online";
                                   "timestamp" := VDatetime t2 ]}) ∧
    a1 ≠ a2 ∧
    t1 ≤ t2.
Proof.
  assert (Hf : Forall forward [Tick 2; Call Study]).
  { constructor; [simpl; lia | constructor; [exact I | constructor]]. }
  split; [exact Hf | ].
  apply (root_timestamps_monotone (import_main 10) _ Hf).
Defined.

(** X7: as long as the clock is not set back after the import, the
    last_updated that GET /info reports is never after the timestamp that
    GET / reports at the same moment of the run. *)
Theorem last_updated_not_after_timestamp
    (t0 : datetime) (evs : list Event) :
  Forall forward evs →
  ∃ info_body root_body lu t,
    response_body Info (run evs (import_main t0)) = Some info_body ∧
    info_body !! "last_updated" = Some (VDatetime lu) ∧
    response_body Root (run evs (import_main t0)) = Some root_body ∧
    root_body !! "timestamp" = Some (VDatetime t) ∧
    lu ≤ t.
Proof.
  intros Hf. rewrite response_body_root.
  rewrite response_body_info by apply run_cache_ok, import_cache_ok.
  eexists _, _, _, _. split; [reflexivity | ].
  split; [reflexivity | ]. split; [reflexivity | ].
  split; [reflexivity | ]. simpl. rewrite run_default.
  apply (run_clock_mono evs (import_main t0) Hf).
Qed.

Lemma last_updated_not_after_timestamp_witness :
  Forall forward [Call Root; Tick 7] ∧
  ∃ info_body root_body lu t,
    response_body Info (run [Call Root; Tick 7] (import_main 3))
      = Some info_body ∧
    info_body !! "last_updated" = Some (VDatetime lu) ∧
    response_body Root (run [Call Root; Tick 7] (import_main 3))
      = Some root_body ∧
    root_body !! "timestamp" = Some (VDatetime t) ∧
    lu ≤ t.
Proof.
  assert (Hf : Forall forward [Call Root; Tick 7]).
  { constructor; [exact I | constructor; [simpl; lia | constructor]]. }
  split; [exact Hf | ].
  apply (last_updated_not_after_timestamp 3 _ Hf).
Defined.

(** X8: in every run each handler returns an address of the store that
    holds an instance of the class its route declares as response_model:
    a dict for root, a PersonalInfo for get_info (on a cache hit too), a
    StudyInfo for get_study_info. *)
Theorem handler_returns_response_model
    (t0 : datetime) (evs : list Event) (e : Endpoint) :
  ∃ a w' o,
    endpoint_fn e (run evs (import_main t0)) = Returned a w' ∧
    heap w' !! a = Some o ∧
    type_of o = response_model e.
Proof.
  destruct e; unfold endpoint_fn.
  - rewrite root_returns. eexists _, _, _. split; [reflexivity | ].
    cbn [heap]. split; [apply lookup_fresh | reflexivity].
  - pose proof (run_cache_ok evs _ (import_cache_ok t0)) as Hok.
    destruct (get_info_spec _ Hok) as (a & w' & Hr & Hh & _).
    by eexists a, w', _.
  - rewrite get_study_info_returns. eexists _, _, _. split; [reflexivity | ].
    cbn [heap]. split; [apply lookup_fresh | reflexivity].
Qed.


(** X10: the clock matters to root only.  Letting time pass before or
    after a call of get_info or of get_study_info gives the same state;
    for root the two orders agree only when no time passes, since the dict
    records the reading. *)
Theorem clock_matters_to_root_only (w : World) (d : Z) :
  step (advance d w) (Call Info) = advance d (step w (Call Info)) ∧
  step (advance d w) (Call Study) = advance d (step w (Call Study)) ∧
  (step (advance d w) (Call Root) = advance d (step w (Call Root)) ↔ d = 0).
Proof.
  split_and!.
  - simpl. destruct (lru_cache w) as [c | ] eqn:Hc.
    + by rewrite (get_info_hit w c Hc), (get_info_hit (advance d w) c Hc).
    + by rewrite (get_info_miss w Hc), (get_info_miss (advance d w) Hc).
  - reflexivity.
  - unfold step, endpoint_fn. rewrite !root_returns.
    cbn [world_of advance clock heap last_updated_default lru_cache].
    split.
    + intros H. apply (f_equal heap) in H. cbn [heap] in H.
      apply app_inj_tail in H as [_ H].
      apply (f_equal (λ o, match o with
                           | ODict m => m !! "timestamp"
                           | _ => None
                           end)) in H.
      cbv beta iota in H.
      rewrite !lookup_insert_ne, !lookup_singleton_eq in H by done.
      assert (clock w + d = clock w) by congruence. lia.
    + intros ->. unfold advance.
      cbn [clock heap last_updated_default lru_cache].
      by rewrite Z.add_0_r.
Qed.
